(** * The parlio unity test of ESP-IDF, embedded in Rocq

    Source: [components/esp_driver_parlio/test_apps/parlio/pytest_parlio_unity.py].

    The file declares one pytest test function, [test_parlio], under five
    bare markers and one [parametrize] marker.  Its body is one expression
    statement, the method call [dut.run_all_single_board_cases()].

    The method belongs to the device-under-test object, which the test
    framework provides.  It is therefore kept external: a Python
    computation is a tree whose nodes are the method calls it issues, and
    the behaviour of those calls is supplied by a handler over an abstract
    world (interpreter process, module globals, attached board). *)

From stdpp Require Import gmap strings list.

Local Open Scope string_scope.
Local Open Scope list_scope.

#[local] Set Warnings "-register-all".

(** ** A fragment of Python: values, exceptions, calls, computations *)

Module Py.

(** The values the file mentions: [None], [True], string constants, a
    list display, and references to objects such as the [dut]. *)
Inductive value : Type :=
| VNone
| VBool (b : bool)
| VStr (s : string)
| VList (xs : list value)
| VRef (l : positive).

(** A raised exception: its class name and its arguments. *)
Record exn : Type := Exception { exc_type : string; exc_args : list value }.

(** [receiver.method( *args, **kwargs )]. *)
Record call : Type := Call {
  receiver : value;
  method : string;
  args : list value;
  kwargs : list (string * value)
}.

(** How an evaluation ends: with a value, or with an exception. *)
Inductive outcome (A : Type) : Type :=
| Returned (a : A)
| Raised (e : exn).
Arguments Returned {A} a.
Arguments Raised {A} e.

(** Computations.  [Invoke c k] looks the method up on the receiver,
    calls it, and continues with [k] on the value it returns. *)
Inductive py (A : Type) : Type :=
| Ret (a : A)
| Raise (e : exn)
| Invoke (c : call) (k : value -> py A).
Arguments Ret {A} a.
Arguments Raise {A} e.
Arguments Invoke {A} c k.

Fixpoint bind {A B : Type} (m : py A) (f : A -> py B) : py B :=
  match m with
  | Ret a => f a
  | Raise e => Raise e
  | Invoke c k => Invoke c (fun v => bind (k v) f)
  end.

(** The external behaviour of method calls over a world [W]: attribute
    lookup on the receiver and the call itself, either of which may
    raise. *)
Definition handler (W : Type) : Type := call -> W -> outcome value * W.

(** What a run leaves behind: how it ended, the world, and the method
    calls issued, oldest first. *)
Record run_result (W A : Type) : Type := RunResult {
  ended : outcome A;
  world : W;
  trace : list call
}.
Arguments RunResult {W A} ended world trace.
Arguments ended {W A} r.
Arguments world {W A} r.
Arguments trace {W A} r.

Definition logged {W A : Type} (c : call) (r : run_result W A) : run_result W A :=
  RunResult (ended r) (world r) (c :: trace r).

Fixpoint run {W A : Type} (h : handler W) (p : py A) (w : W) : run_result W A :=
  match p with
  | Ret a => RunResult (Returned a) w []
  | Raise e => RunResult (Raised e) w []
  | Invoke c k =>
      match h c w with
      | (Returned v, w') => logged c (run h (k v) w')
      | (Raised e, w') => RunResult (Raised e) w' [c]
      end
  end.

(** Statements.  An expression statement evaluates the expression and
    drops its value; a function body runs its statements in order and,
    when control falls off the end, returns [None]. *)
Definition stmt : Type := py unit.

Definition Expr (e : py value) : stmt := bind e (fun _ => Ret tt).

Fixpoint exec (body : list stmt) : py unit :=
  match body with
  | [] => Ret tt
  | s :: rest => bind s (fun _ => exec rest)
  end.

Definition def_body (body : list stmt) : py value :=
  bind (exec body) (fun _ => Ret VNone).

(** [obj.name( *args )] *)
Definition method_call (obj : value) (name : string) (args : list value) : py value :=
  Invoke (Call obj name args []) Ret.

End Py.

Import Py.

(** ** What pytest reads off a decorated test function *)

Module Pytest.

(** A decorator line: a bare marker [@pytest.mark.NAME], or a marker
    with arguments [@pytest.mark.NAME(args, key=value, ...)]. *)
Inductive decorator : Type :=
| Mark (name : string)
| MarkWith (name : string) (args : list value) (kwargs : list (string * value)).

(** An annotation expression: a name such as [Dut], or the constant [None]. *)
Inductive annot : Type :=
| AName (id : string)
| ANone.

(** A formal parameter with its annotation, if any. *)
Record arg : Type := Arg { arg_name : string; annotation : option annot }.

(** The header of a [def]: decorators in source order (topmost first),
    name, parameters, return annotation. *)
Record FunctionDef : Type := Def {
  decorator_list : list decorator;
  name : string;
  params : list arg;
  returns : option annot
}.

(** A function object: its header and its code, which runs over the
    local names bound by the call. *)
Record pyfunction : Type := Function {
  fn_def : FunctionDef;
  fn_code : gmap string value -> py value
}.

Definition argnames (f : FunctionDef) : list string := arg_name <$> params f.



(** [parametrize(argname, argvalues, indirect=...)]; [indirect]
    defaults to [False]. *)
Record parametrization : Type := Parametrize {
  argname : string;
  argvalues : list value;
  indirect : bool
}.

Fixpoint keyword (key : string) (kwargs : list (string * value)) : option value :=
  match kwargs with
  | [] => None
  | (k, v) :: rest => if String.eqb k key then Some v else keyword key rest
  end.

Definition parametrize_of (d : decorator) : option parametrization :=
  match d with
  | MarkWith n [VStr a; VList vs] kw =>
      if String.eqb n "parametrize"
      then Some (Parametrize a vs
                   match keyword "indirect" kw with
                   | Some (VBool b) => b
                   | _ => false
                   end)
      else None
  | _ => None
  end.

Definition parametrizations (f : FunctionDef) : list parametrization :=
  omap parametrize_of (decorator_list f).

(** The values listed for one parametrized name. *)
Definition parametrize_values (f : FunctionDef) (a : string) : list value :=
  flat_map (fun p => if String.eqb (argname p) a then argvalues p else [])
           (parametrizations f).

(** One collected test case: the parameter it carries, and whether the
    value is handed to the fixture of that name ([indirect]) or to the
    function itself. *)
Record callspec : Type := CallSpec {
  param : option (string * value);
  via_fixture : bool
}.

(** Collection, for a function with at most one [parametrize] marker:
    one case per listed value, in list order. *)
Definition collect (f : FunctionDef) : list callspec :=
  match parametrizations f with
  | [] => [CallSpec None false]
  | p :: _ => (fun v => CallSpec (Some (argname p, v)) (indirect p)) <$> argvalues p
  end.

(** Calling [f( **kwargs )] for a function without defaults: every
    parameter must be given and nothing else, or [TypeError] is raised. *)
Definition call_function (f : pyfunction) (kwargs : gmap string value) : py value :=
  if decide (dom kwargs = list_to_set (argnames (fn_def f)))
  then fn_code f kwargs
  else Raise (Exception "TypeError" []).

(** How pytest calls a test: of all the fixture values of the item it
    passes those the function names as parameters. *)
Definition testargs (f : FunctionDef) (funcargs : gmap string value) : gmap string value :=
  filter (fun kv => kv.1 ∈ argnames f) funcargs.

Definition pyfunc_call (f : pyfunction) (funcargs : gmap string value) : py value :=
  call_function f (testargs (fn_def f) funcargs).

End Pytest.

Import Pytest.

(** ** The source file *)

Module Parlio.

(** The decorator lines above [def test_parlio], top to bottom. *)
Definition test_parlio_decorators : list decorator :=
  [ Mark "esp32c5";
    Mark "esp32c6";
    Mark "esp32h2";
    Mark "esp32p4";
    Mark "generic";
    MarkWith "parametrize"
      [ VStr "config"; VList [ VStr "cache_safe"; VStr "release" ] ]
      [ ("indirect", VBool true) ] ].

(** [def test_parlio(dut: Dut) -> None:] *)
Definition test_parlio_def : FunctionDef :=
  Def test_parlio_decorators "test_parlio" [ Arg "dut" (Some (AName "Dut")) ] (Some ANone).

(** The one call of the body: [dut.run_all_single_board_cases()]. *)
Definition single_board_call (dut : value) : call :=
  Call dut "run_all_single_board_cases" [] [].

(** The body: one expression statement. *)
Definition test_parlio_body (dut : value) : list stmt :=
  [ Expr (method_call dut "run_all_single_board_cases" []) ].

(** The function applied to its argument. *)
Definition test_parlio (dut : value) : py value :=
  def_body (test_parlio_body dut).

(** The function object: the body reads the local name [dut]. *)
Definition test_parlio_fn : pyfunction :=
  Function test_parlio_def
    (fun locals =>
       match locals !! "dut" with
       | Some dut => test_parlio dut
       | None => Raise (Exception "UnboundLocalError" [])
       end).

End Parlio.

Import Parlio.

(** ** Boards to run the test against *)

Module Bench.

(** The world of a bench run: the module globals of the test process
    and the number of unity menus the board has been taken through. *)
Record bench : Type := MkBench {
  module_globals : gmap string value;
  menus_run : nat
}.

(** A board whose [run_all_single_board_cases] ends as [verdict] says;
    any other attribute is missing. *)
Definition board (verdict : outcome value) : handler bench :=
  fun c b =>
    if String.eqb (method c) "run_all_single_board_cases"
    then (verdict, MkBench (module_globals b) (S (menus_run b)))
    else (Raised (Exception "AttributeError" [VStr (method c)]), b).

Definition passing_board : handler bench := board (Returned VNone).

Definition unity_failure : exn := Exception "AssertionError" [VStr "Unity test failed"].

Definition failing_board : handler bench := board (Raised unity_failure).

Definition fresh : bench := MkBench (<["pytest" := VRef 1]> ∅) 0.

Definition the_dut : value := VRef 2.

End Bench.

Import Bench.

(** ** Running computations *)

Section Running.
Context {W : Type} (h : handler W).

Lemma run_bind {A B : Type} (m : py A) (f : A -> py B) (w : W) :
  run h (bind m f) w =
  match ended (run h m w) with
  | Returned a =>
      let r := run h (f a) (world (run h m w)) in
      RunResult (ended r) (world r) (trace (run h m w) ++ trace r)
  | Raised e => RunResult (Raised e) (world (run h m w)) (trace (run h m w))
  end.
Proof.
  revert w. induction m as [a | e | c k IH]; intros w; cbn.
  - by destruct (run h (f a) w).
  - done.
  - destruct (h c w) as [[v | e] w']; [| done].
    rewrite IH. cbn. by destruct (ended (run h (k v) w')).
Qed.

(** A run of a part is the beginning of a run of the whole. *)
Lemma trace_bind {A B : Type} (m : py A) (f : A -> py B) (w : W) :
  trace (run h m w) `prefix_of` trace (run h (bind m f) w).
Proof.
  rewrite run_bind. destruct (ended (run h m w)); cbn.
  - by eexists.
  - done.
Qed.

(** A method call is one external call and ends as that call ends. *)
Lemma run_method_call (obj : value) (name : string) (args : list value) (w : W) :
  run h (method_call obj name args) w =
  RunResult (h (Call obj name args []) w).1 (h (Call obj name args []) w).2
            [Call obj name args []].
Proof.
  cbn. by destruct (h _ w) as [[v | e] w'].
Qed.

(** A body of one expression statement does what the expression does
    and turns a returned value into [None]. *)
Lemma run_def_body_Expr (e : py value) (w : W) :
  run h (def_body [Expr e]) w =
  RunResult match ended (run h e w) with
            | Returned _ => Returned VNone
            | Raised x => Raised x
            end
            (world (run h e w)) (trace (run h e w)).
Proof.
  unfold def_body, Expr. cbn [exec].
  rewrite !run_bind.
  destruct (run h e w) as [[v | x] w' t]; cbn; [| done].
  by rewrite !app_nil_r.
Qed.

(** The whole run of [test_parlio] in terms of the one external call. *)
Lemma run_test_parlio (dut : value) (w : W) :
  run h (test_parlio dut) w =
  match h (single_board_call dut) w with
  | (Returned _, w') => RunResult (Returned VNone) w' [single_board_call dut]
  | (Raised e, w') => RunResult (Raised e) w' [single_board_call dut]
  end.
Proof.
  unfold test_parlio, test_parlio_body.
  rewrite run_def_body_Expr, run_method_call. fold (single_board_call dut).
  by destruct (h _ w) as [[v | e] w'].
Qed.

End Running.

(** ** How pytest reaches the function *)

(** Of all fixture values only [dut] is passed on. *)
Lemma testargs_test_parlio (funcargs : gmap string value) :
  testargs test_parlio_def funcargs =
  match funcargs !! "dut" with
  | Some dut => {["dut" := dut]}
  | None => ∅
  end.
Proof.
  apply map_eq. intros k. unfold testargs. rewrite map_lookup_filter. cbn.
  destruct (decide (k = "dut")) as [-> | Hk].
  - destruct (funcargs !! "dut") as [d |] eqn:Hd; cbn.
    + rewrite lookup_singleton_eq. rewrite option_guard_True; [done |].
      cbn. by rewrite list_elem_of_singleton.
    + done.
  - transitivity (@None value).
    + destruct (funcargs !! k) as [v |]; cbn; [| done].
      rewrite option_guard_False; [done |].
      cbn. by rewrite list_elem_of_singleton.
    + destruct (funcargs !! "dut"); [by rewrite lookup_singleton_ne | done].
Qed.

Lemma pyfunc_call_test_parlio (funcargs : gmap string value) :
  pyfunc_call test_parlio_fn funcargs =
  match funcargs !! "dut" with
  | Some dut => test_parlio dut
  | None => Raise (Exception "TypeError" [])
  end.
Proof.
  unfold pyfunc_call, call_function. rewrite testargs_test_parlio.
  destruct (funcargs !! "dut") as [d |]; cbn [fn_def test_parlio_fn fn_code].
  - rewrite decide_True; [by rewrite lookup_singleton_eq |].
    rewrite dom_singleton_L. cbn. set_solver.
  - rewrite decide_False; [done |].
    rewrite dom_empty_L. cbn. set_solver.
Qed.

(** Collection keeps the order of the listed values. *)
Lemma collect_order (f : FunctionDef) (p : parametrization) (rest : list parametrization) :
  parametrizations f = p :: rest ->
  (param <$> collect f) = ((fun v => Some (argname p, v)) <$> argvalues p).
Proof.
  intros Hp. unfold collect. rewrite Hp.
  induction (argvalues p) as [| v vs IH]; [done |].
  cbn. by f_equal.
Qed.

Lemma collect_length (f : FunctionDef) (p : parametrization) (rest : list parametrization) :
  parametrizations f = p :: rest ->
  length (collect f) = length (argvalues p).
Proof.
  intros Hp. unfold collect. rewrite Hp. apply length_fmap.
Qed.

(** The file has one parametrization: [config], through its fixture. *)
Lemma test_parlio_parametrizations :
  parametrizations test_parlio_def =
  [ Parametrize "config" [ VStr "cache_safe"; VStr "release" ] true ].
Proof. reflexivity. Qed.

(** ** The function body *)

(** C1.  Whatever object [dut] is and however the outside world behaves,
    [test_parlio] consists of one statement, issues exactly one method
    call, [dut.run_all_single_board_cases()] with no positional and no
    keyword arguments, and ends as that call ends: with [None] when the
    call returns (whatever it returns), with the call's exception
    otherwise. *)
Theorem test_parlio_single_call {W : Type} (h : handler W) (dut : value) (w : W) :
  length (test_parlio_body dut) = 1 ∧
  trace (run h (test_parlio dut) w) = [ Call dut "run_all_single_board_cases" [] [] ] ∧
  ended (run h (test_parlio dut) w) =
    match (h (Call dut "run_all_single_board_cases" [] []) w).1 with
    | Returned _ => Returned VNone
    | Raised e => Raised e
    end.
Proof.
  rewrite run_test_parlio. unfold single_board_call.
  by destruct (h _ w) as [[v | e] w'].
Qed.

(** C4.  An exception raised by [dut.run_all_single_board_cases()] leaves
    [test_parlio] as it is: the run ends with that very exception, in the
    world the method left, after the one call; and [test_parlio] raises
    nothing the call did not raise. *)
Theorem test_parlio_exception_propagates {W : Type} (h : handler W) (dut : value)
    (w w' : W) (e : exn)
    (Hraise : h (Call dut "run_all_single_board_cases" [] []) w = (Raised e, w')) :
  run h (test_parlio dut) w =
    RunResult (Raised e) w' [ Call dut "run_all_single_board_cases" [] [] ] ∧
  ∀ e' : exn, ended (run h (test_parlio dut) w) = Raised e' → e' = e.
Proof.
  rewrite run_test_parlio. unfold single_board_call. rewrite Hraise.
  split; [done |]. cbn. by intros e' [= ->].
Qed.

Lemma test_parlio_exception_propagates_witness :
  run failing_board (test_parlio the_dut) fresh =
    RunResult (Raised unity_failure)
              (MkBench (module_globals fresh) 1)
              [ Call the_dut "run_all_single_board_cases" [] [] ].
Proof.
  apply (test_parlio_exception_propagates failing_board the_dut fresh
           (MkBench (module_globals fresh) 1) unity_failure).
  reflexivity.
Defined.

(** C5.  [test_parlio] adds no effect of its own: the world after the run
    is the world the method call left, every call issued is on [dut], and
    whatever the method call leaves unchanged (module globals, for one)
    is unchanged after the run. *)
Theorem test_parlio_frame {W X : Type} (h : handler W) (dut : value) (w : W)
    (observe : W → X)
    (Hkept : observe (h (Call dut "run_all_single_board_cases" [] []) w).2 = observe w) :
  world (run h (test_parlio dut) w) = (h (Call dut "run_all_single_board_cases" [] []) w).2 ∧
  Forall (fun c => receiver c = dut) (trace (run h (test_parlio dut) w)) ∧
  observe (world (run h (test_parlio dut) w)) = observe w.
Proof.
  rewrite run_test_parlio. unfold single_board_call in *.
  destruct (h _ w) as [[v | e] w']; cbn in *; repeat split; auto.
Qed.

Lemma test_parlio_frame_witness :
  world (run passing_board (test_parlio the_dut) fresh) = MkBench (module_globals fresh) 1 ∧
  Forall (fun c => receiver c = the_dut) (trace (run passing_board (test_parlio the_dut) fresh)) ∧
  module_globals (world (run passing_board (test_parlio the_dut) fresh)) = module_globals fresh.
Proof.
  apply (test_parlio_frame passing_board the_dut fresh module_globals).
  reflexivity.
Defined.

(** C7.  [test_parlio] takes exactly one parameter, [dut], annotated
    [Dut]; its return annotation is [None]; and a call that completes
    normally returns [None]. *)
Theorem test_parlio_signature {W : Type} (h : handler W) (dut : value) (w : W) (v : value)
    (Hnormal : ended (run h (test_parlio dut) w) = Returned v) :
  params test_parlio_def = [ Arg "dut" (Some (AName "Dut")) ] ∧
  returns test_parlio_def = Some ANone ∧
  v = VNone.
Proof.
  repeat split.
  revert Hnormal. rewrite run_test_parlio.
  destruct (h _ w) as [[r | e] w']; cbn; congruence.
Qed.

Lemma test_parlio_signature_witness :
  params test_parlio_def = [ Arg "dut" (Some (AName "Dut")) ] ∧
  returns test_parlio_def = Some ANone ∧
  VNone = VNone.
Proof.
  apply (test_parlio_signature passing_board the_dut fresh VNone).
  reflexivity.
Defined.

(** ** The parametrization *)

(** C6.  The [config] value does not reach the function: it is handed to
    the fixture ([indirect=True]), [config] is not a parameter of
    [test_parlio], and for any fixture values and any two values bound to
    [config] the call pytest makes is the same computation.  The method
    calls it issues are the same even when the two runs meet boards that
    behave differently. *)
Theorem test_parlio_config_independent {W1 W2 : Type} (h1 : handler W1) (h2 : handler W2)
    (w1 : W1) (w2 : W2) (funcargs : gmap string value) (c1 c2 : value) :
  Forall (fun cs => via_fixture cs = true) (collect test_parlio_def) ∧
  ("config" ∉ argnames test_parlio_def) ∧
  pyfunc_call test_parlio_fn (<["config" := c1]> funcargs) =
    pyfunc_call test_parlio_fn (<["config" := c2]> funcargs) ∧
  trace (run h1 (pyfunc_call test_parlio_fn (<["config" := c1]> funcargs)) w1) =
    trace (run h2 (pyfunc_call test_parlio_fn (<["config" := c2]> funcargs)) w2).
Proof.
  split; [by repeat constructor |].
  split; [cbn; by rewrite list_elem_of_singleton |].
  rewrite !pyfunc_call_test_parlio, !lookup_insert_ne by done.
  split; [done |].
  destruct (funcargs !! "dut") as [dut |]; [| done].
  rewrite !run_test_parlio.
  destruct (h1 _ w1) as [[? | ?] ?], (h2 _ w2) as [[? | ?] ?]; done.
Qed.

(** C3.  The [config] axis lists exactly two values, and so two cases
    are collected. *)
Theorem config_axis_has_two_values :
  length (parametrize_values test_parlio_def "config") = 2 ∧
  length (collect test_parlio_def) = 2.
Proof.
  split; [reflexivity |].
  by rewrite (collect_length _ _ _ test_parlio_parametrizations).
Qed.

(** C8.  The values of the [config] axis are the strings [cache_safe] and
    [release], in this order, and the cases are collected in this order. *)
Theorem config_values_in_order :
  parametrize_values test_parlio_def "config" = [ VStr "cache_safe"; VStr "release" ] ∧
  (param <$> collect test_parlio_def) =
    [ Some ("config", VStr "cache_safe"); Some ("config", VStr "release") ].
Proof.
  split; [reflexivity |].
  by rewrite (collect_order _ _ _ test_parlio_parametrizations).
Qed.

(** ** The markers *)

